(** * A shallow embedding of [app.py]: a Streamlit chat page over the Gemini SDK

    The page is one script that Streamlit runs from top to bottom at every
    interaction.  What survives from one run to the next is
    [st.session_state]; everything else (widget values, the vendor SDK, the
    wall clock) is input to the run.  The embedding therefore has

    - the records the script keeps in [st.session_state],
    - [initialize_client_and_chat], the Session Manager,
    - [submit], the body of the [st.chat_input] branch (Turn Orchestrator and
      the quota handler written to start the Restoration Procedure),
    - [script_run], one whole run of the script,
    - [reachable], the states the page can be in between two runs.

    Python [str] values are modelled as [string] holding their UTF-8
    encoding: emptiness, equality and concatenation agree with Python's on
    code points.  [st.rerun()] and [st.stop()] raise exceptions that derive
    from [BaseException], so no [except Exception] clause of the script
    intercepts them: they end the run, and are modelled by the [control]
    value returned next to the state.

    The script is written against names that the [google.genai] package it
    imports does not have; module [google_genai] below records which.  The
    functions that use these names are embedded as they are written, each
    lookup guarded by the fact it depends on, so that what is proved is the
    behaviour of the script with the package it imports. *)

From Stdlib Require Import String Ascii List Bool Arith Lia.
Import ListNotations.
Open Scope string_scope.
Open Scope list_scope.

(** ** Python helpers *)

(** Truthiness of a [str]: only the empty string is falsy. *)
Definition truthy (s : string) : bool :=
  match s with
  | EmptyString => false
  | String _ _ => true
  end.

(** Truthiness of a value that is [None] or a [str]. *)
Definition truthy_opt (o : option string) : bool :=
  match o with
  | None => false
  | Some s => truthy s
  end.

(** The slice [l[-n:]]: the last [n] elements, the whole list when it is
    shorter.  ([l[-0:]] is [l[0:]], the whole list.) *)
Definition slice_last {A : Type} (n : nat) (l : list A) : list A :=
  match n with
  | 0 => l
  | S _ => skipn (List.length l - n) l
  end.

(** [d[k]] on a dict given as an association list; [None] is [KeyError]. *)
Fixpoint dict_get (d : list (string * string)) (k : string) : option string :=
  match d with
  | [] => None
  | (k', v) :: d' => if String.eqb k' k then Some v else dict_get d' k
  end.

(** ** Configuration (lines 10-31) *)

Definition DEFAULT_MODEL : string := "gemini-2.0-flash".

Definition dquote : string := String (ascii_of_nat 34) EmptyString.

Definition SYSTEM_PROMPT : string :=
  "
당신은 고객의 상황에 맞는 옷차림을 간결하게 추천해주는 친절한 AI 스타일리스트입니다.
고객은 외출 전 바쁜 상황이므로, 대답은 반드시 간결하고 실용적이어야 합니다.

[운영 규칙]
1. 사용자가 오늘의 온도, 일교차, 어떤 활동을 하는지, 성별, 나이 등의 정보를 제공하면, 이 정보를 **구체적으로** 정리하여 수집하세요.
2. 정보가 충분하지 않으면, 부족한 부분을 한 문장으로 **간결하게** 되물어보세요.
3. 필요한 정보를 모두 수집한 후에는, 사용자의 상황(온도/활동/성별/나이 등)에 맞는 **실용적인 옷차림**을 한 문단으로 **간결하게** 추천하세요.
4. 마지막에는 반드시 다음 메시지를 출력하세요: " ++ dquote ++
  "오늘의 당신에게 맞는 상품을 추천해드릴 수 있어요." ++ dquote ++
  "라고 정중히 안내하세요.
".

Definition RESTART_MESSAGE : string :=
  "❗️ API 요청 오류(429 등)가 발생하여 이전 6턴의 대화만 유지하고 채팅 세션을 재시작합니다.".

(** Max turns (user/model pair) to keep upon 429 restart. *)
Definition MAX_HISTORY_TURN : nat := 6.

Definition AVAILABLE_MODELS : list string :=
  [ "gemini-2.0-flash"; "gemini-2.5-flash"; "gemini-2.0-pro"; "gemini-2.5-pro" ].

(** The prefix of the reply shown for a non-quota failure (line 204). *)
Definition APOLOGY : string := "죄송합니다. 오류가 발생했습니다: ".

(** ** Data model *)

(** An element of [st.session_state.messages]: [{"role": .., "content": ..}]. *)
Record Turn : Type := mkTurn { role : string; content : string }.

(** An element of [st.session_state.history_log]. *)
Record LogEntry : Type := mkLogEntry {
  Timestamp : string;
  Role : string;
  Content : string;
  Model : string
}.

(** The part of [google.genai.types] the script builds values of. *)
Module types.
Record Part : Type := from_text { text : string }.
Record Content : Type := mkContent { role : string; parts : list Part }.
Record GenerateContentConfig : Type :=
  mkConfig { system_instruction : string }.
End types.

(** The chat object returned by [client.chats.create]: the script reads and
    writes its [history] list and nothing else. *)
Record Chat : Type := mkChat {
  model : string;
  config : types.GenerateContentConfig;
  history : list types.Content
}.

(** [st.session_state].  [gemini_chat = None] stands for the key being
    absent.  The other keys are read only after line 98 (resp. line 127) has
    given them a value, so an absent key and the default below are
    indistinguishable. *)
Record session_state : Type := mkState {
  gemini_chat : option Chat;
  messages : list Turn;
  history_log : list LogEntry;
  model_name : string;
  auto_log : bool
}.

Definition set_gemini_chat (v : option Chat) (st : session_state) :=
  mkState v (messages st) (history_log st) (model_name st) (auto_log st).
Definition set_messages (v : list Turn) (st : session_state) :=
  mkState (gemini_chat st) v (history_log st) (model_name st) (auto_log st).
Definition set_history_log (v : list LogEntry) (st : session_state) :=
  mkState (gemini_chat st) (messages st) v (model_name st) (auto_log st).
Definition set_model_name (v : string) (st : session_state) :=
  mkState (gemini_chat st) (messages st) (history_log st) v (auto_log st).
Definition set_auto_log (v : bool) (st : session_state) :=
  mkState (gemini_chat st) (messages st) (history_log st) (model_name st) v.

(** The session state of a browser session that has not run the script yet. *)
Definition fresh_session : session_state :=
  mkState None [] [] EmptyString false.

(** How a run of the script (or a call that never returns normally) ends. *)
Inductive control : Type :=
| Rerun      (* st.rerun() *)
| Stop       (* st.stop() *)
| Finished   (* the last line of the script was reached *)
| Uncaught.  (* an exception leaves the script; Streamlit shows it *)

(** ** What the outside world contributes to one run *)

(** How the iteration over the streamed response ends. *)
Inductive StreamEnd : Type :=
| StopIteration                     (* the stream is exhausted *)
| QuotaError                        (* the exception of a 429, quota exhausted *)
| OtherException (str_e : string).  (* any other Exception; [str(e)] *)

(** [send_message(prompt, stream=True)] and the iteration over it: the
    [chunk.text] of the chunks delivered ([None] when missing), then the way
    the iteration ends.  An exception raised by [send_message] itself is a
    response with no chunk; this is the only response of a [Chat] whose
    [send_message] has no [stream] parameter (see [raises_at_once]). *)
Record Response : Type := mkResponse {
  chunks : list (option string);
  ending : StreamEnd
}.

Record inputs : Type := mkInputs {
  secrets_GEMINI_API_KEY : option string;  (* st.secrets.get('GEMINI_API_KEY') *)
  text_input : string;                     (* the sidebar password field *)
  selectbox : string;                      (* selected_model *)
  button : bool;                           (* the reset button *)
  checkbox : bool;                         (* the CSV logging checkbox *)
  chat_input : option string;              (* st.chat_input(..) *)
  client_ok : bool;    (* genai.Client and client.chats.create do not raise *)
  send_message : Response;
  now_first : string;  (* datetime.now().strftime(..), first reading of the run *)
  now_second : string  (* second reading of the run *)
}.

(** ** The names the script expects of [google.genai] *)

Module google_genai.

(** [types.errors] (line 194): [google.genai.types] has no attribute
    [errors]; the exception classes of the package are in
    [google.genai.errors], and none is called [ResourceExhaustedError]. *)
Definition types_has_errors : bool := false.

(** [chat.history] (line 71): a [Chat] has no attribute [history]; its
    history is read with [get_history()]. *)
Definition chat_has_history : bool := false.

(** [types.Part.from_text(msg["content"])] (line 74): [from_text] takes its
    text as a keyword argument only. *)
Definition from_text_takes_positional : bool := false.

End google_genai.

(** ** Session Manager: [initialize_client_and_chat] (lines 50-94) *)

Definition role_map : list (string * string) :=
  [ ("user", "user"); ("assistant", "model") ].

(** The loop of lines 68-76 over [history_to_restore], appending to
    [chat.history].  The boolean is [false] when an iteration raised; the
    contents appended before that stay appended.  An iteration evaluates
    [chat.history] first ([AttributeError] when the attribute is missing),
    then [role_map[msg["role"]]] ([KeyError] on an unknown role), then
    [types.Part.from_text(..)] ([TypeError] when it rejects a positional
    argument). *)
Fixpoint replay (history_to_restore : list Turn) (chat_history : list types.Content)
  : list types.Content * bool :=
  match history_to_restore with
  | [] => (chat_history, true)
  | msg :: rest =>
      if google_genai.chat_has_history then
        match dict_get role_map (role msg) with
        | None => (chat_history, false)
        | Some r =>
            if google_genai.from_text_takes_positional then
              replay rest
                (chat_history
                   ++ [types.mkContent r [types.from_text (content msg)]])
            else (chat_history, false)
        end
      else (chat_history, false)
  end.

Definition restart_turn : Turn := mkTurn "assistant" RESTART_MESSAGE.

Definition restart_entry (now model_name : string) : LogEntry :=
  mkLogEntry now "assistant" RESTART_MESSAGE model_name.

(** [client_ok] and [now] are the world's part: whether the client and the
    chat can be created, and the clock reading of line 80.  The function
    never returns to its caller: it ends the run with [st.rerun()], or with
    [st.stop()] from its [except Exception] clause (line 92), which also
    takes the exception of a replay that raised: the new chat and the model
    name are set by then (lines 62-63), the stores are not touched. *)
Definition initialize_client_and_chat (client_ok : bool) (now : string)
    (api_key model_name_arg system_prompt : string)
    (history_to_restore : option (list Turn)) (st : session_state)
  : session_state * control :=
  if negb client_ok then (st, Stop)
  else
    let chat := mkChat model_name_arg (types.mkConfig system_prompt) [] in
    let st := set_gemini_chat (Some chat) st in
    let st := set_model_name model_name_arg st in
    match history_to_restore with
    | Some ((_ :: _) as h) =>
        let (chat_history, ok) := replay h (history chat) in
        let st :=
          set_gemini_chat
            (Some (mkChat (model chat) (config chat) chat_history)) st in
        if ok then
          let st := set_messages (h ++ [restart_turn]) st in
          let st :=
            set_history_log
              (history_log st ++ [restart_entry now (model_name st)]) st in
          (st, Rerun)
        else (st, Stop)
    | _ =>
        let st := set_messages [] st in
        let st := set_history_log [] st in
        (st, Rerun)
    end.

(** ** Turn Orchestrator: the [st.chat_input] branch (lines 162-220) *)

(** Lines 164-172: the user message goes to both stores. *)
Definition record_user (now prompt : string) (st : session_state) : session_state :=
  let st := set_messages (messages st ++ [mkTurn "user" prompt]) st in
  set_history_log
    (history_log st ++ [mkLogEntry now "user" prompt (model_name st)]) st.

(** Lines 187-189: [if chunk.text: full_response += chunk.text]. *)
Fixpoint accumulate (chunks : list (option string)) (full_response : string) : string :=
  match chunks with
  | [] => full_response
  | chunk_text :: rest =>
      accumulate rest
        (if truthy_opt chunk_text
         then (full_response ++ match chunk_text with Some t => t | None => EmptyString end)%string
         else full_response)
  end.

(** Lines 207-218: record the model response. *)
Definition record_response (now full_response : string) (st : session_state)
  : session_state :=
  if truthy full_response && negb (String.eqb full_response RESTART_MESSAGE) then
    let st := set_messages (messages st ++ [mkTurn "assistant" full_response]) st in
    if auto_log st then
      set_history_log
        (history_log st
           ++ [mkLogEntry now "assistant" full_response (model_name st)]) st
    else st
  else st.

(** Lines 196-200: the [except types.errors.ResourceExhaustedError] clause.
    [log_to_keep] is computed and not used afterwards. *)
Definition handle_resource_exhausted (client_ok : bool) (now api_key : string)
    (st : session_state) : session_state * control :=
  let history_to_keep := slice_last (MAX_HISTORY_TURN * 2) (messages st) in
  let log_to_keep := slice_last (MAX_HISTORY_TURN * 2) (history_log st) in
  initialize_client_and_chat client_ok now api_key (model_name st) SYSTEM_PROMPT
    (Some history_to_keep) st.

(** How the [try] statement of lines 182-205 is left. *)
Inductive try_outcome : Type :=
| Replied (full_response : string)  (* line 207 is reached with this text *)
| Restoring                         (* the handler of line 194 runs *)
| Propagated.                       (* an exception leaves the statement *)

(** Lines 180-205.  When the iteration ends normally no [except] clause is
    looked at.  When an exception leaves the [try] block, Python evaluates
    the expression of the first clause, [types.errors.ResourceExhaustedError]
    (line 194), before it can match anything: without [types.errors] this
    lookup raises [AttributeError], which leaves the statement; the clause
    of line 203 is not reached.  With it, the quota error goes to the
    handler of line 194 and any other exception to the apology of line
    204. *)
Definition try_send (r : Response) : try_outcome :=
  let full_response := EmptyString in
  match ending r with
  | StopIteration => Replied (accumulate (chunks r) full_response)
  | QuotaError =>
      if google_genai.types_has_errors then Restoring else Propagated
  | OtherException str_e =>
      if google_genai.types_has_errors
      then Replied (APOLOGY ++ str_e)%string
      else Propagated
  end.

(** Lines 177-220: from the call of the chat session to the end of the run.
    An exception that leaves the [try] statement leaves the script: lines
    207-220 are not run, the session state stays as it is. *)
Definition call_gemini (i : inputs) (api_key prompt : string) (st : session_state)
  : session_state * control :=
  match try_send (send_message i) with
  | Replied full_response =>
      (record_response (now_second i) full_response st, Rerun)
  | Restoring => handle_resource_exhausted (client_ok i) (now_second i) api_key st
  | Propagated => (st, Uncaught)
  end.

Definition submit (i : inputs) (api_key prompt : string) (st : session_state)
  : session_state * control :=
  let st := record_user (now_first i) prompt st in
  call_gemini i api_key prompt st.

(** ** One run of the script *)

(** [get_api_key] (lines 38-48); [None] is [st.stop()]. *)
Definition get_api_key (i : inputs) : option string :=
  let api_key := secrets_GEMINI_API_KEY i in
  let api_key := if truthy_opt api_key then api_key else Some (text_input i) in
  if truthy_opt api_key then api_key else None.

(** Lines 98-101. *)
Definition initial_setup (st : session_state) : session_state :=
  match gemini_chat st with
  | None =>
      let st := set_messages [] st in
      let st := set_history_log [] st in
      set_model_name DEFAULT_MODEL st
  | Some _ => st
  end.

Definition script_run (i : inputs) (st : session_state) : session_state * control :=
  let st := initial_setup st in
  let selected_model := selectbox i in
  match get_api_key i with
  | None => (st, Stop)
  | Some api_key =>
      if button i then
        initialize_client_and_chat (client_ok i) (now_first i)
          api_key selected_model SYSTEM_PROMPT None st
      else
        let st := set_auto_log (checkbox i) st in
        if (match gemini_chat st with None => true | Some _ => false end
            || negb (String.eqb (model_name st) selected_model))
           && truthy api_key
        then
          initialize_client_and_chat (client_ok i) (now_first i)
            api_key selected_model SYSTEM_PROMPT None st
        else
          if truthy_opt (chat_input i) then
            submit i api_key
              (match chat_input i with Some p => p | None => EmptyString end) st
          else (st, Finished)
  end.

(** The states in which the page can be between two runs of the script. *)
Inductive reachable : session_state -> Prop :=
| reachable_fresh : reachable fresh_session
| reachable_run : forall i st,
    reachable st -> reachable (fst (script_run i st)).

(** Several runs in a row, e.g. a run and the reruns it asks for. *)
Definition run_all (runs : list inputs) (st : session_state) : session_state :=
  fold_left (fun st i => fst (script_run i st)) runs st.

(** ** Vocabulary of the specification *)

(** The roles a Turn of the data model can have. *)
Definition valid_role (r : string) : Prop := r = "user" \/ r = "assistant".

Definition well_formed (t : Turn) : Prop := valid_role (role t).

(** The role-label remapping in the specification's words: [assistant]
    becomes the provider's [model], [user] stays [user]. *)
Definition remap_role (r : string) : string :=
  if String.eqb r "assistant" then "model" else r.

(** What the specification expects a replayed Turn to be: the remapped role
    and the content text, untouched, as the only part. *)
Definition replayed (t : Turn) : types.Content :=
  types.mkContent (remap_role (role t)) [types.from_text (content t)].

(** A fragment of the stream with an empty or missing text. *)
Definition textless (chunk_text : option string) : Prop :=
  chunk_text = None \/ chunk_text = Some EmptyString.

(** A transcript made of user/assistant pairs. *)
Fixpoint paired (l : list Turn) : Prop :=
  match l with
  | [] => True
  | u :: a :: rest => role u = "user" /\ role a = "assistant" /\ paired rest
  | _ => False
  end.

(** The Turn an Audit Log entry reflects. *)
Definition turn_of_entry (e : LogEntry) : Turn := mkTurn (Role e) (Content e).

(** The synthetic restart notice, as an Audit Log entry. *)
Definition is_restart_entry (e : LogEntry) : bool :=
  String.eqb (Role e) "assistant" && String.eqb (Content e) RESTART_MESSAGE.

Definition count_restart (log : list LogEntry) : nat :=
  List.length (filter is_restart_entry log).


(** A send that raises before any chunk arrives.  A [Chat.send_message]
    without a [stream] parameter answers the call of line 184 in this way
    only, with a [TypeError]. *)
Definition raises_at_once (r : Response) : Prop :=
  chunks r = [] /\ ending r <> StopIteration.




(** ** Scenarios *)

Definition the_chat : Response -> option string -> bool -> inputs :=
  fun r prompt toggle =>
    mkInputs (Some "key") EmptyString DEFAULT_MODEL false toggle prompt true r
      "2024-01-01 00:00:00" "2024-01-01 00:00:01".

(** The first run of a session: no prompt yet, the chat gets created. *)
Definition first_run (toggle : bool) : inputs :=
  the_chat (mkResponse [] StopIteration) None toggle.

(** The user sends [u] and the model streams [a] in one chunk. *)
Definition exchange (toggle : bool) (u a : string) : inputs :=
  the_chat (mkResponse [Some a] StopIteration) (Some u) toggle.

(** The user sends [u] and the call fails with a quota error. *)
Definition quota_failure (toggle : bool) (u : string) : inputs :=
  the_chat (mkResponse [] QuotaError) (Some u) toggle.

(** The user sends [u] and the stream delivers chunks without text. *)
Definition silent_reply (toggle : bool) (u : string) : inputs :=
  the_chat (mkResponse [None; Some EmptyString] StopIteration) (Some u) toggle.

(** Short names for the Turns and log entries of the scenarios. *)
Definition user (c : string) : Turn := mkTurn "user" c.
Definition assistant (c : string) : Turn := mkTurn "assistant" c.
Definition logged (r c : string) : LogEntry :=
  mkLogEntry (if String.eqb r "user" then "2024-01-01 00:00:00"
              else "2024-01-01 00:00:01") r c DEFAULT_MODEL.

(** Seven completed user/assistant pairs, logged at every turn. *)
Definition seven_pairs : session_state :=
  run_all
    [ first_run true;
      exchange true "u1" "a1"; exchange true "u2" "a2";
      exchange true "u3" "a3"; exchange true "u4" "a4";
      exchange true "u5" "a5"; exchange true "u6" "a6";
      exchange true "u7" "a7" ]
    fresh_session.

(** A session that has just been created, with the logging toggle as given. *)
Definition new_session (toggle : bool) : session_state :=
  run_all [ first_run toggle ] fresh_session.

(** One completed exchange, not logged. *)
Definition one_exchange : session_state :=
  run_all [ first_run false; exchange false "hello" "hi" ] fresh_session.

(** The operator picks another model in the select box. *)
Definition change_model (selected_model : string) : inputs :=
  mkInputs (Some "key") EmptyString selected_model false false None true
    (mkResponse [] StopIteration) "2024-01-01 00:01:00" "2024-01-01 00:01:01".

(** The state an eighth message leaves when its send meets the quota error
    after seven completed pairs. *)
Definition restarted_after_seven : session_state :=
  fst (script_run (quota_failure true "u8") seven_pairs).

(** The send is cut by an exception other than the quota error, after a
    first chunk. *)
Definition timed_out : inputs :=
  the_chat (mkResponse [Some "par"] (OtherException "timed out"))
    (Some "hello") false.

(** The call of the chat raises at once, as [send_message] does when it is
    given a keyword it does not have. *)
Definition rejected_call (toggle : bool) (u : string) : inputs :=
  the_chat
    (mkResponse []
       (OtherException "send_message() got an unexpected keyword argument 'stream'"))
    (Some u) toggle.


(** The first message of a session meets the quota error. *)
Definition after_quota_error (toggle : bool) : session_state :=
  run_all [ first_run toggle; quota_failure toggle "hello" ] fresh_session.

(** The history of one exchange, as the quota handler would pass it. *)
Definition hello_hi : list Turn := [user "hello"; assistant "hi"].

(** ** The rest of the page: what is drawn *)

(** The cursor drawn after the partial reply while it streams (line 190). *)
Definition CURSOR : string := "▌".

(** Lines 187-190: the texts passed to [message_placeholder.markdown] while
    the chunks arrive, in order. *)
Fixpoint stream_renderings (chunks : list (option string)) (full_response : string)
  : list string :=
  match chunks with
  | [] => []
  | chunk_text :: rest =>
      if truthy_opt chunk_text then
        let full_response :=
          (full_response
             ++ match chunk_text with Some t => t | None => EmptyString end)%string in
        (full_response ++ CURSOR)%string :: stream_renderings rest full_response
      else stream_renderings rest full_response
  end.

(** All the texts the placeholder shows during one send: the partial texts,
    then the text with which line 207 is reached, drawn on line 192 (the
    final text) or on line 205 (the apology).  Nothing more is drawn when
    the [try] statement is left otherwise. *)
Definition placeholder_renderings (r : Response) : list string :=
  stream_renderings (chunks r) EmptyString
    ++ match try_send r with
       | Replied full_response => [full_response]
       | Restoring | Propagated => []
       end.

(** Line 132: the log download is offered when the log is not empty. *)
Definition log_download_offered (st : session_state) : bool :=
  match history_log st with
  | [] => false
  | _ :: _ => true
  end.

(** Line 153: the turn count shown in the sidebar, [len(messages)//2]. *)
Definition total_turns (st : session_state) : nat :=
  List.length (messages st) / 2.

(** The text of a chunk, with a missing text read as the empty one. *)
Definition fragment (chunk_text : option string) : string :=
  match chunk_text with
  | Some t => t
  | None => EmptyString
  end.

Definition is_user (t : Turn) : bool := String.eqb (role t) "user".

Definition is_assistant (t : Turn) : bool := String.eqb (role t) "assistant".

(** The states reached through runs during which the logging checkbox keeps
    one value, whatever the sends do. *)
Inductive reachable_with_toggle (toggle : bool) : session_state -> Prop :=
| toggle_fresh : reachable_with_toggle toggle fresh_session
| toggle_run : forall i st,
    reachable_with_toggle toggle st ->
    checkbox i = toggle ->
    reachable_with_toggle toggle (fst (script_run i st)).

(** The states reached through runs whose sends, when a prompt makes them
    send, all raise at once. *)
Inductive reachable_raising : session_state -> Prop :=
| raising_fresh : reachable_raising fresh_session
| raising_run : forall i st,
    reachable_raising st ->
    (truthy_opt (chat_input i) = true -> raises_at_once (send_message i)) ->
    reachable_raising (fst (script_run i st)).

(** A transcript in which every assistant Turn answers the user Turn just
    before it. *)
Inductive dialogue : list Turn -> Prop :=
| dialogue_nil : dialogue []
| dialogue_prompt : forall l prompt,
    dialogue l -> dialogue (l ++ [mkTurn "user" prompt])
| dialogue_reply : forall l prompt reply,
    dialogue l ->
    dialogue (l ++ [mkTurn "user" prompt; mkTurn "assistant" reply]).

(** Two prompts sent to a call that raises at once, logged. *)
Definition two_rejected_calls : session_state :=
  run_all
    [ first_run true; rejected_call true "hello"; rejected_call true "anyone?" ]
    fresh_session.

(** The reset button is pressed while a prompt is submitted. *)
Definition press_reset : inputs :=
  mkInputs (Some "key") EmptyString DEFAULT_MODEL true true (Some "again") true
    (mkResponse [Some "hi"] StopIteration)
    "2024-01-01 00:02:00" "2024-01-01 00:02:01".

(** The operator picks another model and the new client cannot be created. *)
Definition change_model_offline : inputs :=
  mkInputs (Some "key") EmptyString "gemini-2.5-pro" false true None false
    (mkResponse [] StopIteration)
    "2024-01-01 00:03:00" "2024-01-01 00:03:01".

(** * Properties *)

(** ** Strings and slices *)

Lemma truthy_false_iff (s : string) : truthy s = false <-> s = EmptyString.
Proof. destruct s; simpl; split; congruence. Qed.

Lemma truthy_true_iff (s : string) : truthy s = true <-> s <> EmptyString.
Proof. destruct s; simpl; split; congruence. Qed.

Lemma append_empty_r (s : string) : (s ++ EmptyString)%string = s.
Proof. induction s as [|c s IH]; simpl; [reflexivity | now rewrite IH]. Qed.

Lemma slice_last_short {A : Type} (n : nat) (l : list A) :
  List.length l <= n -> slice_last n l = l.
Proof.
  intros Hlen. destruct n as [|n]; [reflexivity|].
  unfold slice_last. replace (List.length l - S n) with 0 by lia. reflexivity.
Qed.

Lemma slice_last_length {A : Type} (n : nat) (l : list A) :
  0 < n -> List.length (slice_last n l) = Nat.min n (List.length l).
Proof.
  intros Hn. destruct n as [|n]; [lia|].
  unfold slice_last. rewrite length_skipn. lia.
Qed.

(** A slice is a suffix: what it drops comes before what it keeps. *)
Lemma slice_last_suffix {A : Type} (n : nat) (l : list A) :
  exists dropped, l = dropped ++ slice_last n l.
Proof.
  destruct n as [|n].
  - exists []. reflexivity.
  - exists (firstn (List.length l - S n) l). unfold slice_last.
    symmetry. apply firstn_skipn.
Qed.

(** The last element of a non-empty list survives the slice. *)
Lemma slice_last_snoc {A : Type} (n : nat) (l : list A) (x : A) :
  0 < n -> exists kept, slice_last n (l ++ [x]) = kept ++ [x].
Proof.
  intros Hn. destruct n as [|n]; [lia|].
  unfold slice_last. rewrite length_app. simpl.
  rewrite skipn_app.
  replace (List.length l + 1 - S n - List.length l) with 0 by lia.
  simpl. eexists. reflexivity.
Qed.

Lemma slice_last_keeps_some {A : Type} (n : nat) (l : list A) :
  0 < n -> l <> [] -> slice_last n l <> [].
Proof.
  intros Hn Hl Hnil. apply (f_equal (@List.length A)) in Hnil.
  rewrite slice_last_length in Hnil by exact Hn.
  destruct l; [congruence | cbn in Hnil; lia].
Qed.

(** ** Session Manager *)

(** The dictionary of line 70 is the remapping of the specification on the
    two roles of the data model, and knows no other role. *)
Lemma role_map_valid (r : string) :
  valid_role r -> dict_get role_map r = Some (remap_role r).
Proof. intros [-> | ->]; reflexivity. Qed.

Lemma role_map_defined (r v : string) :
  dict_get role_map r = Some v -> valid_role r.
Proof.
  unfold role_map, valid_role. cbn [dict_get]. intros H.
  destruct (String.eqb_spec "user" r) as [<- | _]; [now left|].
  destruct (String.eqb_spec "assistant" r) as [<- | _]; [now right|].
  discriminate H.
Qed.

(** The first iteration of the replay raises at [chat.history]: nothing is
    appended, whatever the Turn. *)
Lemma replay_raises (msg : Turn) (rest : list Turn)
    (chat_history : list types.Content) :
  replay (msg :: rest) chat_history = (chat_history, false).
Proof. reflexivity. Qed.

Section SessionManager.

Variables (now api_key model_name_arg system_prompt : string).
Variable st : session_state.

Let new_chat : Chat :=
  mkChat model_name_arg (types.mkConfig system_prompt) [].

(** The client or the chat cannot be created: nothing changes, the run
    stops. *)
Lemma initialize_client_failure (restore : option (list Turn)) :
  initialize_client_and_chat false now api_key model_name_arg system_prompt
    restore st = (st, Stop).
Proof. reflexivity. Qed.

(** Full reset: no history to restore. *)
Lemma initialize_reset :
  initialize_client_and_chat true now api_key model_name_arg system_prompt
    None st
  = (mkState (Some new_chat) [] [] model_name_arg (auto_log st), Rerun).
Proof. reflexivity. Qed.

(** An empty list is falsy at line 66 and resets as well. *)
Lemma initialize_restore_nil :
  initialize_client_and_chat true now api_key model_name_arg system_prompt
    (Some []) st
  = (mkState (Some new_chat) [] [] model_name_arg (auto_log st), Rerun).
Proof. reflexivity. Qed.

(** A history to restore that is not empty: the replay raises, line 92
    takes the exception and stops the run.  The new chat and the model name
    are in the session state, the stores are as they were. *)
Lemma initialize_restore_stops (h : list Turn) :
  h <> [] ->
  initialize_client_and_chat true now api_key model_name_arg system_prompt
    (Some h) st
  = (mkState (Some new_chat) (messages st) (history_log st) model_name_arg
       (auto_log st),
     Stop).
Proof. intros Hne. destruct h as [|m ms]; [congruence | reflexivity]. Qed.

End SessionManager.

(** C6, on the code.  The history of one exchange is not replayed into the
    new chat session: the first iteration of the loop raises, the run is
    stopped, and what the session state then holds is a chat without any
    replayed content, under a transcript and a log that were not touched.
    What the specification expects in the chat, the two Turns with their
    roles remapped and their texts unchanged, is not there. *)
Theorem replay_raises_on_first_turn :
  replay hello_hi [] = ([], false)
  /\ initialize_client_and_chat true "2024-01-01 00:01:00" "key" DEFAULT_MODEL
       SYSTEM_PROMPT (Some hello_hi) one_exchange
     = (one_exchange, Stop)
  /\ gemini_chat one_exchange
     = Some (mkChat DEFAULT_MODEL (types.mkConfig SYSTEM_PROMPT) [])
  /\ map replayed hello_hi
     = [ types.mkContent "user" [types.from_text "hello"];
         types.mkContent "model" [types.from_text "hi"] ]
  /\ map replayed hello_hi <> [].
Proof.
  split; [reflexivity|]. split; [reflexivity|]. split; [reflexivity|].
  split; [reflexivity | discriminate].
Qed.

(** ** Turn Orchestrator *)

Lemma append_eq_empty (a b : string) :
  (a ++ b)%string = EmptyString <-> a = EmptyString /\ b = EmptyString.
Proof.
  destruct a; simpl; split.
  - now intros ->.
  - now intros [_ ->].
  - discriminate.
  - intros [H _]. discriminate H.
Qed.

Lemma textless_falsy (chunk_text : option string) :
  textless chunk_text <-> truthy_opt chunk_text = false.
Proof.
  unfold textless. destruct chunk_text as [[|c s]|]; simpl; split;
    try tauto; try congruence.
  intros [H | H]; discriminate H.
Qed.

Lemma accumulate_empty_iff (l : list (option string)) :
  forall full_response,
    accumulate l full_response = EmptyString
    <-> full_response = EmptyString /\ Forall textless l.
Proof.
  induction l as [|c l IH]; intros acc; cbn [accumulate].
  - split; [intros ->; split; [reflexivity | constructor] | tauto].
  - rewrite IH. destruct (truthy_opt c) eqn:Hc.
    + split.
      * intros [Happ _]. apply append_eq_empty in Happ as [_ Hc'].
        destruct c as [t|]; [subst t|]; discriminate Hc.
      * intros [_ Hall]. inversion Hall as [|? ? Hhd _]; subst.
        apply textless_falsy in Hhd. congruence.
    + apply textless_falsy in Hc. split.
      * intros [-> Hall]. split; [reflexivity | now constructor].
      * intros [-> Hall]. inversion Hall; subst. tauto.
Qed.

(** The [try] statement is left in one of two ways: line 207 is reached
    with the accumulated text of a stream that ended normally, or the
    exception that ended the stream leaves the statement.  No exception
    reaches the quota handler or the apology. *)
Lemma try_send_cases (r : Response) :
  (ending r = StopIteration
   /\ try_send r = Replied (accumulate (chunks r) EmptyString))
  \/ (ending r <> StopIteration /\ try_send r = Propagated).
Proof.
  unfold try_send. destruct (ending r); [left | right | right];
    split; try reflexivity; discriminate.
Qed.

Section Orchestrator.

Variable i : inputs.
Variables api_key prompt : string.
Variable st : session_state.

Let user_turn : Turn := mkTurn "user" prompt.
Let user_entry : LogEntry :=
  mkLogEntry (now_first i) "user" prompt (model_name st).
Let pending : session_state := record_user (now_first i) prompt st.

Lemma record_user_state :
  pending
  = mkState (gemini_chat st) (messages st ++ [user_turn])
      (history_log st ++ [user_entry]) (model_name st) (auto_log st).
Proof. reflexivity. Qed.

(** Line 207 is reached with a text that line 208 lets through. *)
Lemma submit_answered (full_response : string) :
  try_send (send_message i) = Replied full_response ->
  truthy full_response = true ->
  full_response <> RESTART_MESSAGE ->
  submit i api_key prompt st
  = (mkState (gemini_chat st)
       (messages st ++ [user_turn; mkTurn "assistant" full_response])
       (history_log st ++ user_entry ::
          (if auto_log st
           then [mkLogEntry (now_second i) "assistant" full_response
                   (model_name st)]
           else []))
       (model_name st) (auto_log st),
     Rerun).
Proof.
  intros Hresp Htruthy Hneq. unfold submit, call_gemini. rewrite Hresp.
  unfold record_response. rewrite Htruthy.
  apply String.eqb_neq in Hneq. rewrite Hneq. cbn [negb andb].
  unfold record_user, set_messages, set_history_log. cbn.
  rewrite <- !app_assoc. destruct (auto_log st); reflexivity.
Qed.

(** Line 207 is reached with a text that line 208 holds back. *)
Lemma submit_held_back (full_response : string) :
  try_send (send_message i) = Replied full_response ->
  full_response = EmptyString \/ full_response = RESTART_MESSAGE ->
  submit i api_key prompt st = (pending, Rerun).
Proof.
  intros Hresp Hheld. unfold submit, call_gemini. rewrite Hresp.
  unfold record_response.
  destruct Hheld as [-> | ->]; reflexivity.
Qed.

(** The stream is ended by an exception, of whatever kind: the exception
    leaves the script after the user message was recorded. *)
Lemma submit_raised :
  ending (send_message i) <> StopIteration ->
  submit i api_key prompt st = (pending, Uncaught).
Proof.
  intros Hend. unfold submit, call_gemini.
  destruct (try_send_cases (send_message i)) as [[Hstop _] | [_ ->]];
    [contradiction | reflexivity].
Qed.

(** What a submit does to the session state, on every path: the user Turn
    and its entry are appended; after them comes nothing, or the assistant
    Turn of a text that line 208 lets through, with its entry when the
    toggle is on.  The chat, the model name and the toggle are kept. *)
Lemma submit_effect :
  exists reply,
    messages (fst (submit i api_key prompt st))
    = messages st ++ user_turn :: map (mkTurn "assistant") reply
    /\ history_log (fst (submit i api_key prompt st))
       = history_log st ++ user_entry ::
           (if auto_log st
            then map (fun r => mkLogEntry (now_second i) "assistant" r
                                 (model_name st)) reply
            else [])
    /\ (reply = []
        \/ exists r, reply = [r] /\ r <> EmptyString /\ r <> RESTART_MESSAGE
                     /\ try_send (send_message i) = Replied r)
    /\ gemini_chat (fst (submit i api_key prompt st)) = gemini_chat st
    /\ model_name (fst (submit i api_key prompt st)) = model_name st
    /\ auto_log (fst (submit i api_key prompt st)) = auto_log st.
Proof.
  destruct (try_send_cases (send_message i)) as [[_ Hresp] | [Hend _]].
  - destruct (truthy (accumulate (chunks (send_message i)) EmptyString))
      eqn:Htruthy.
    + destruct (String.eqb_spec
                  (accumulate (chunks (send_message i)) EmptyString)
                  RESTART_MESSAGE) as [Hnotice | Hneq].
      * exists []. rewrite (submit_held_back _ Hresp (or_intror Hnotice)).
        cbn. destruct (auto_log st); repeat split; now left.
      * exists [accumulate (chunks (send_message i)) EmptyString].
        rewrite (submit_answered _ Hresp Htruthy Hneq). cbn.
        destruct (auto_log st); repeat split; right; eexists;
          (split; [reflexivity|]); (split; [now apply truthy_true_iff|]);
          now split.
    + exists []. apply truthy_false_iff in Htruthy.
      rewrite (submit_held_back _ Hresp (or_introl Htruthy)).
      cbn. destruct (auto_log st); repeat split; now left.
  - exists []. rewrite (submit_raised Hend).
    cbn. destruct (auto_log st); repeat split; now left.
Qed.

End Orchestrator.

(** C7, on the code.  A send that is cut by an exception other than the
    quota error is not recovered: the lookup of line 194 raises before the
    clause of line 203 is tried, and the exception leaves the script.  The
    transcript keeps the user Turn and gets no apology, the log keeps the
    user entry, and the run ends without the rerun. *)
Theorem generic_error_is_not_recovered :
  try_send (send_message timed_out) = Propagated
  /\ script_run timed_out (new_session false)
     = (record_user "2024-01-01 00:00:00" "hello" (new_session false),
        Uncaught)
  /\ messages (fst (script_run timed_out (new_session false)))
     = [user "hello"]
  /\ ~ In (assistant (APOLOGY ++ "timed out"))
         (messages (fst (script_run timed_out (new_session false))))
  /\ history_log (fst (script_run timed_out (new_session false)))
     = [logged "user" "hello"].
Proof.
  split; [reflexivity|]. split; [reflexivity|]. split; [reflexivity|].
  split; [|reflexivity].
  intros [H | []]. discriminate H.
Qed.

(** C8.  The user Turn and its log entry are appended by [record_user],
    which does not look at the response: the call of the chat session sees
    a state that already holds both, whatever it answers, and both are still
    there at the end of the run.  With the logging toggle off, a reply that
    streams to a text [r] (not empty, not the restart notice) is appended to
    the transcript and not to the log, which gains the user entry only. *)
Theorem user_turn_recorded_before_call
    (i : inputs) (api_key prompt : string) (st : session_state) :
  submit i api_key prompt st
  = call_gemini i api_key prompt (record_user (now_first i) prompt st)
  /\ messages (record_user (now_first i) prompt st)
     = messages st ++ [mkTurn "user" prompt]
  /\ history_log (record_user (now_first i) prompt st)
     = history_log st ++ [mkLogEntry (now_first i) "user" prompt (model_name st)]
  /\ In (mkTurn "user" prompt) (messages (fst (submit i api_key prompt st)))
  /\ In (mkLogEntry (now_first i) "user" prompt (model_name st))
       (history_log (fst (submit i api_key prompt st)))
  /\ (forall r,
        auto_log st = false ->
        ending (send_message i) = StopIteration ->
        accumulate (chunks (send_message i)) EmptyString = r ->
        r <> EmptyString -> r <> RESTART_MESSAGE ->
        messages (fst (submit i api_key prompt st))
        = messages st ++ [mkTurn "user" prompt; mkTurn "assistant" r]
        /\ history_log (fst (submit i api_key prompt st))
           = history_log st
               ++ [mkLogEntry (now_first i) "user" prompt (model_name st)]).
Proof.
  split; [reflexivity|]. split; [reflexivity|]. split; [reflexivity|].
  destruct (submit_effect i api_key prompt st)
    as (reply & Hmsgs & Hlog & _).
  split; [rewrite Hmsgs; apply in_or_app; right; now left|].
  split; [rewrite Hlog; apply in_or_app; right; now left|].
  intros r Hoff Hend Hacc Hne Hnr.
  assert (Hresp : try_send (send_message i) = Replied r).
  { unfold try_send. now rewrite Hend, Hacc. }
  rewrite (submit_answered i api_key prompt st _ Hresp); trivial.
  - rewrite Hoff. split; reflexivity.
  - now apply truthy_true_iff.
Qed.

(** The scenario of C8: toggle off, the user sends "hello", the assistant
    replies "hi". *)
Lemma user_turn_recorded_before_call_witness :
  messages (fst (submit (exchange false "hello" "hi") "key" "hello"
                   (new_session false)))
  = [mkTurn "user" "hello"; mkTurn "assistant" "hi"]
  /\ history_log (fst (submit (exchange false "hello" "hi") "key" "hello"
                         (new_session false)))
     = [mkLogEntry "2024-01-01 00:00:00" "user" "hello" DEFAULT_MODEL].
Proof.
  destruct (user_turn_recorded_before_call (exchange false "hello" "hi")
              "key" "hello" (new_session false))
    as (_ & _ & _ & _ & _ & Hoff).
  apply (Hoff "hi"); try reflexivity; discriminate.
Defined.

(** C10.  When every chunk of the stream has an empty or missing text, the
    accumulated reply is the empty string, and the run ends with the state
    the user append left: no assistant Turn in the transcript, no assistant
    entry in the log (whatever the logging toggle), and the user Turn is the
    last Turn of the transcript, without a reply. *)
Theorem empty_reply_leaves_user_turn_unpaired
    (i : inputs) (api_key prompt : string) (st : session_state) :
  ending (send_message i) = StopIteration ->
  Forall textless (chunks (send_message i)) ->
  accumulate (chunks (send_message i)) EmptyString = EmptyString
  /\ submit i api_key prompt st = (record_user (now_first i) prompt st, Rerun)
  /\ messages (fst (submit i api_key prompt st))
     = messages st ++ [mkTurn "user" prompt]
  /\ history_log (fst (submit i api_key prompt st))
     = history_log st ++ [mkLogEntry (now_first i) "user" prompt (model_name st)]
  /\ last (messages (fst (submit i api_key prompt st))) restart_turn
     = mkTurn "user" prompt.
Proof.
  intros Hend Hall.
  assert (Hacc : accumulate (chunks (send_message i)) EmptyString = EmptyString).
  { apply accumulate_empty_iff. now split. }
  assert (Hsub : submit i api_key prompt st
                 = (record_user (now_first i) prompt st, Rerun)).
  { apply submit_held_back with (full_response := EmptyString).
    - unfold try_send. now rewrite Hend, Hacc.
    - now left. }
  rewrite Hsub. cbn [fst]. repeat split; try reflexivity; try assumption.
  change (messages (record_user (now_first i) prompt st))
    with (messages st ++ [mkTurn "user" prompt]).
  apply last_last.
Qed.

(** An instance of [empty_reply_leaves_user_turn_unpaired]: a stream of two
    chunks, one without text and one with the empty text. *)
Lemma empty_reply_leaves_user_turn_unpaired_witness :
  ending (send_message (silent_reply true "hello")) = StopIteration
  /\ Forall textless (chunks (send_message (silent_reply true "hello")))
  /\ messages (fst (submit (silent_reply true "hello") "key" "hello"
                      (new_session true)))
     = [mkTurn "user" "hello"]
  /\ history_log (fst (submit (silent_reply true "hello") "key" "hello"
                         (new_session true)))
     = [mkLogEntry "2024-01-01 00:00:00" "user" "hello" DEFAULT_MODEL].
Proof.
  assert (Hend : ending (send_message (silent_reply true "hello"))
                 = StopIteration) by reflexivity.
  assert (Hall : Forall textless
                   (chunks (send_message (silent_reply true "hello")))).
  { apply Forall_cons; [now left|]. apply Forall_cons; [now right|].
    apply Forall_nil. }
  split; [exact Hend|]. split; [exact Hall|].
  destruct (empty_reply_leaves_user_turn_unpaired (silent_reply true "hello")
              "key" "hello" (new_session true) Hend Hall)
    as (_ & _ & Hmsgs & Hlog & _).
  split; [exact Hmsgs | exact Hlog].
Defined.

Lemma count_restart_app (l1 l2 : list LogEntry) :
  count_restart (l1 ++ l2) = count_restart l1 + count_restart l2.
Proof. unfold count_restart. now rewrite filter_app, length_app. Qed.

(** The body of the quota handler, on a transcript that is not empty: the
    replay of its call raises, the run is stopped, and the stores are as
    they were.  The log is not cut ([log_to_keep] is not assigned to it) and
    no restart notice is written. *)
Lemma handler_leaves_stores_untouched
    (now api_key : string) (st : session_state) :
  messages st <> [] ->
  handle_resource_exhausted true now api_key st
  = (mkState
       (Some (mkChat (model_name st) (types.mkConfig SYSTEM_PROMPT) []))
       (messages st) (history_log st) (model_name st) (auto_log st),
     Stop).
Proof.
  intros Hne. unfold handle_resource_exhausted.
  apply initialize_restore_stops. apply slice_last_keeps_some.
  - unfold MAX_HISTORY_TURN. lia.
  - exact Hne.
Qed.

(** C4, on the code.  The first message of a session meets the quota
    error, with the logging toggle off or on: the exception leaves the
    script, the log holds the user entry and no restart notice, and the
    transcript holds no notice either. *)
Theorem quota_error_logs_no_notice (toggle : bool) :
  snd (script_run (quota_failure toggle "hello") (new_session toggle))
  = Uncaught
  /\ messages (after_quota_error toggle) = [user "hello"]
  /\ history_log (after_quota_error toggle) = [logged "user" "hello"]
  /\ count_restart (history_log (after_quota_error toggle)) = 0
  /\ ~ In restart_turn (messages (after_quota_error toggle)).
Proof.
  destruct toggle; repeat split; try reflexivity;
    intros [H | []]; discriminate H.
Qed.

(** ** One run of the script *)

Lemma get_api_key_truthy (i : inputs) (api_key : string) :
  get_api_key i = Some api_key -> truthy api_key = true.
Proof.
  unfold get_api_key.
  destruct (truthy_opt (secrets_GEMINI_API_KEY i)) eqn:Hsecret.
  - rewrite Hsecret. intros H. rewrite H in Hsecret. exact Hsecret.
  - cbn [truthy_opt]. destruct (truthy (text_input i)) eqn:Htyped.
    + intros H. injection H as <-. exact Htyped.
    + discriminate.
Qed.

Lemma initial_setup_active (st : session_state) (chat : Chat) :
  gemini_chat st = Some chat -> initial_setup st = st.
Proof. unfold initial_setup. now intros ->. Qed.

(** The paths a run can take, on the state [initial_setup] leaves. *)
Lemma script_run_cases (i : inputs) (st : session_state) :
  script_run i st = (initial_setup st, Stop)
  \/ (exists api_key,
        script_run i st
        = initialize_client_and_chat (client_ok i) (now_first i) api_key
            (selectbox i) SYSTEM_PROMPT None (initial_setup st))
  \/ (exists api_key,
        script_run i st
        = initialize_client_and_chat (client_ok i) (now_first i) api_key
            (selectbox i) SYSTEM_PROMPT None
            (set_auto_log (checkbox i) (initial_setup st)))
  \/ (exists api_key prompt chat,
        gemini_chat st = Some chat
        /\ truthy_opt (chat_input i) = true
        /\ script_run i st
           = submit i api_key prompt (set_auto_log (checkbox i) st))
  \/ script_run i st = (set_auto_log (checkbox i) (initial_setup st), Finished).
Proof.
  unfold script_run.
  destruct (get_api_key i) as [api_key|] eqn:Hkey; [|now left].
  destruct (button i); [right; left; now exists api_key|].
  rewrite (get_api_key_truthy _ _ Hkey), andb_true_r.
  destruct (gemini_chat st) as [chat|] eqn:Hchat.
  - rewrite (initial_setup_active _ _ Hchat).
    cbn [gemini_chat model_name set_auto_log]. rewrite Hchat. cbn [orb].
    destruct (negb (model_name st =? selectbox i)%string).
    + right; right; left. now exists api_key.
    + destruct (truthy_opt (chat_input i)).
      * right; right; right; left.
        exists api_key,
          (match chat_input i with Some p => p | None => EmptyString end), chat.
        repeat split; reflexivity.
      * right; right; right; right. reflexivity.
  - replace (gemini_chat (set_auto_log (checkbox i) (initial_setup st)))
      with (@None Chat).
    + cbn [orb]. right; right; left. now exists api_key.
    + unfold initial_setup. now rewrite Hchat.
Qed.

(** When a session is active for the selected model and a prompt comes in,
    the run is the Turn Orchestrator's. *)
Lemma script_run_submit
    (i : inputs) (st : session_state) (chat : Chat) (api_key prompt : string) :
  gemini_chat st = Some chat ->
  model_name st = selectbox i ->
  button i = false ->
  get_api_key i = Some api_key ->
  chat_input i = Some prompt ->
  prompt <> EmptyString ->
  script_run i st = submit i api_key prompt (set_auto_log (checkbox i) st).
Proof.
  intros Hchat Hmodel Hbutton Hkey Hprompt Hne. unfold script_run.
  rewrite Hkey, Hbutton, (initial_setup_active _ _ Hchat).
  cbn [gemini_chat model_name set_auto_log]. rewrite Hchat, Hmodel.
  rewrite String.eqb_refl. cbn [negb orb andb].
  rewrite Hprompt. cbn [truthy_opt].
  apply truthy_true_iff in Hne. now rewrite Hne.
Qed.

(** A run without a prompt leaves empty stores empty. *)
Lemma script_run_no_prompt_empty (i : inputs) (st : session_state) :
  chat_input i = None ->
  messages st = [] -> history_log st = [] ->
  messages (fst (script_run i st)) = []
  /\ history_log (fst (script_run i st)) = [].
Proof.
  intros Hprompt Hmsgs Hlog.
  destruct st as [chat msgs log name toggle]. cbn in Hmsgs, Hlog. subst.
  unfold script_run, initial_setup, initialize_client_and_chat.
  rewrite Hprompt. cbn [truthy_opt gemini_chat].
  destruct chat; destruct (get_api_key i); cbn;
    repeat match goal with
           | |- context [if ?c then _ else _] => destruct c; cbn
           end;
    split; reflexivity.
Qed.

(** C5.  Whenever the selected model differs from the model of the active
    session (and a key is available and the new session can be created),
    the run re-initializes with no history to restore: it ends in a rerun
    with an empty transcript and an empty log, under the selected model.
    The rerun, which carries no prompt, leaves both empty. *)
Theorem model_change_resets
    (i : inputs) (st : session_state) (chat : Chat) (api_key : string) :
  gemini_chat st = Some chat ->
  model_name st <> selectbox i ->
  get_api_key i = Some api_key ->
  client_ok i = true ->
  script_run i st
  = initialize_client_and_chat true (now_first i) api_key (selectbox i)
      SYSTEM_PROMPT None
      (if button i then st else set_auto_log (checkbox i) st)
  /\ snd (script_run i st) = Rerun
  /\ messages (fst (script_run i st)) = []
  /\ history_log (fst (script_run i st)) = []
  /\ model_name (fst (script_run i st)) = selectbox i
  /\ forall rerun,
       chat_input rerun = None ->
       messages (fst (script_run rerun (fst (script_run i st)))) = []
       /\ history_log (fst (script_run rerun (fst (script_run i st)))) = [].
Proof.
  intros Hchat Hmodel Hkey Hok.
  assert (Hrun : script_run i st
                 = initialize_client_and_chat true (now_first i) api_key
                     (selectbox i) SYSTEM_PROMPT None
                     (if button i then st else set_auto_log (checkbox i) st)).
  { unfold script_run.
    rewrite Hkey, Hok, (initial_setup_active _ _ Hchat).
    destruct (button i); [reflexivity|].
    cbn [gemini_chat model_name set_auto_log]. rewrite Hchat.
    apply String.eqb_neq in Hmodel. rewrite Hmodel.
    cbn [negb orb andb]. now rewrite (get_api_key_truthy _ _ Hkey). }
  split; [exact Hrun|]. rewrite Hrun, initialize_reset. cbn [fst snd].
  repeat split; try reflexivity.
  - now apply script_run_no_prompt_empty.
  - now apply script_run_no_prompt_empty.
Qed.

(** An instance of [model_change_resets]: after one exchange under the
    default model, the operator selects another model. *)
Lemma model_change_resets_witness :
  gemini_chat one_exchange
  = Some (mkChat DEFAULT_MODEL (types.mkConfig SYSTEM_PROMPT) [])
  /\ messages one_exchange
     = [mkTurn "user" "hello"; mkTurn "assistant" "hi"]
  /\ model_name one_exchange <> selectbox (change_model "gemini-2.5-pro")
  /\ messages (fst (script_run (change_model "gemini-2.5-pro") one_exchange))
     = []
  /\ history_log (fst (script_run (change_model "gemini-2.5-pro") one_exchange))
     = []
  /\ model_name (fst (script_run (change_model "gemini-2.5-pro") one_exchange))
     = "gemini-2.5-pro".
Proof.
  assert (Hchat : gemini_chat one_exchange
                  = Some (mkChat DEFAULT_MODEL (types.mkConfig SYSTEM_PROMPT) []))
    by reflexivity.
  assert (Hmodel : model_name one_exchange
                   <> selectbox (change_model "gemini-2.5-pro"))
    by (vm_compute; discriminate).
  split; [exact Hchat|]. split; [reflexivity|]. split; [exact Hmodel|].
  destruct (model_change_resets (change_model "gemini-2.5-pro") one_exchange
              _ "key" Hchat Hmodel eq_refl eq_refl)
    as (_ & _ & Hmsgs & Hlog & Hname & _).
  split; [exact Hmsgs|]. split; [exact Hlog | exact Hname].
Defined.

(** ** States between runs *)

(** The whole decision tree of the script, from the key to the prompt. *)
Lemma script_run_decision (i : inputs) (st : session_state) :
  match get_api_key i with
  | None => script_run i st = (initial_setup st, Stop)
  | Some api_key =>
      if button i then
        script_run i st
        = initialize_client_and_chat (client_ok i) (now_first i) api_key
            (selectbox i) SYSTEM_PROMPT None (initial_setup st)
      else
        match gemini_chat st with
        | None =>
            script_run i st
            = initialize_client_and_chat (client_ok i) (now_first i) api_key
                (selectbox i) SYSTEM_PROMPT None
                (set_auto_log (checkbox i) (initial_setup st))
        | Some _ =>
            if String.eqb (model_name st) (selectbox i) then
              if truthy_opt (chat_input i) then
                script_run i st
                = submit i api_key (fragment (chat_input i))
                    (set_auto_log (checkbox i) st)
              else script_run i st = (set_auto_log (checkbox i) st, Finished)
            else
              script_run i st
              = initialize_client_and_chat (client_ok i) (now_first i) api_key
                  (selectbox i) SYSTEM_PROMPT None
                  (set_auto_log (checkbox i) st)
        end
  end.
Proof.
  unfold script_run.
  destruct (get_api_key i) as [api_key|] eqn:Hkey; [|reflexivity].
  destruct (button i); [reflexivity|].
  rewrite (get_api_key_truthy _ _ Hkey), andb_true_r.
  destruct (gemini_chat st) as [chat|] eqn:Hchat.
  - rewrite (initial_setup_active _ _ Hchat).
    cbn [gemini_chat model_name set_auto_log]. rewrite Hchat. cbn [orb].
    destruct (model_name st =? selectbox i)%string; cbn [negb];
      [|reflexivity].
    destruct (truthy_opt (chat_input i)); reflexivity.
  - replace (gemini_chat (set_auto_log (checkbox i) (initial_setup st)))
      with (@None Chat); [reflexivity|].
    unfold initial_setup. now rewrite Hchat.
Qed.

Lemma submit_control (i : inputs) (api_key prompt : string) (st : session_state) :
  snd (submit i api_key prompt st) <> Finished
  /\ snd (submit i api_key prompt st) <> Stop.
Proof.
  unfold submit, call_gemini.
  destruct (try_send_cases (send_message i)) as [[_ ->] | [_ ->]];
    split; discriminate.
Qed.

Lemma run_all_reachable (runs : list inputs) :
  forall st, reachable st -> reachable (run_all runs st).
Proof.
  induction runs as [|i runs IH]; intros st Hst; cbn [run_all fold_left].
  - exact Hst.
  - apply IH. now apply reachable_run.
Qed.

Lemma initial_setup_messages (st : session_state) :
  messages (initial_setup st) = [] \/ messages (initial_setup st) = messages st.
Proof. unfold initial_setup. destruct (gemini_chat st); [now right | now left]. Qed.

Lemma initial_setup_history_log (st : session_state) :
  history_log (initial_setup st) = []
  \/ history_log (initial_setup st) = history_log st.
Proof. unfold initial_setup. destruct (gemini_chat st); [now right | now left]. Qed.


(** To show that something holds between any two runs, show that it holds
    in a fresh browser session and that the steps of a run keep it. *)
Lemma reachable_by_steps (P : session_state -> Prop) :
  P fresh_session ->
  (forall st, P st -> P (initial_setup st)) ->
  (forall st toggle, P st -> P (set_auto_log toggle st)) ->
  (forall st ok now api_key m,
     P st ->
     P (fst (initialize_client_and_chat ok now api_key m SYSTEM_PROMPT None st))) ->
  (forall st i api_key prompt chat,
     gemini_chat st = Some chat -> P st ->
     P (fst (submit i api_key prompt st))) ->
  forall st, reachable st -> P st.
Proof.
  intros Hfresh Hsetup Htoggle Hinit Hsubmit st Hst.
  induction Hst as [|i st _ IH]; [exact Hfresh|].
  destruct (script_run_cases i st)
    as [-> | [[k ->] | [[k ->] | [(k & p & c & Hchat & _ & ->) | ->]]]];
    cbn [fst].
  - now apply Hsetup.
  - now apply Hinit, Hsetup.
  - now apply Hinit, Htoggle, Hsetup.
  - apply Hsubmit with (chat := c); [exact Hchat | now apply Htoggle].
  - now apply Htoggle, Hsetup.
Qed.

(** ** The shape of the transcript *)



Lemma paired_well_formed (l : list Turn) : paired l -> Forall well_formed l.
Proof.
  assert (Hgen : forall n l', List.length l' <= n ->
                 paired l' -> Forall well_formed l').
  { induction n as [|n IH]; intros l' Hlen Hl.
    - destruct l'; [constructor | cbn in Hlen; lia].
    - destruct l' as [|u [|a rest]]; [constructor | destruct Hl |].
      cbn in Hl. destruct Hl as (Hu & Ha & Hrest).
      constructor; [now left|]. constructor; [now right|].
      apply IH; trivial. cbn in Hlen. lia. }
  now apply (Hgen (List.length l)).
Qed.

(** Every Turn the page ever stores is a user or an assistant Turn. *)
Lemma reachable_well_formed (st : session_state) :
  reachable st -> Forall well_formed (messages st).
Proof.
  revert st. apply reachable_by_steps.
  - constructor.
  - intros st IH. destruct (initial_setup_messages st) as [-> | ->];
      [constructor | exact IH].
  - intros st toggle IH. exact IH.
  - intros st ok now k m IH. destruct ok; [constructor | exact IH].
  - intros st i k p c _ IH.
    destruct (submit_effect i k p st) as (reply & -> & _ & Hreply & _).
    apply Forall_app. split; [exact IH|].
    constructor; [now left|].
    destruct Hreply as [-> | (r & -> & _)]; [constructor|].
    constructor; [now right | constructor].
Qed.





(** ** The Audit Log against the transcript *)

(** The restart notice reaches neither store: the only code that writes it
    is behind a replay that raises, and line 208 keeps a reply with its text
    out of the transcript. *)
Lemma restart_notice_never_stored (st : session_state) :
  reachable st ->
  ~ In restart_turn (messages st) /\ count_restart (history_log st) = 0.
Proof.
  revert st. apply reachable_by_steps.
  - split; [intros [] | reflexivity].
  - intros st IH. unfold initial_setup.
    destruct (gemini_chat st); [exact IH|]. split; [intros [] | reflexivity].
  - intros st toggle IH. exact IH.
  - intros st ok now k m IH.
    destruct ok; [split; [intros [] | reflexivity] | exact IH].
  - intros st i k p c _ [IHmsgs IHlog].
    destruct (submit_effect i k p st) as (reply & -> & -> & Hreply & _).
    split.
    + rewrite in_app_iff. intros [Hin | [Heq | Hin]].
      * now apply IHmsgs.
      * discriminate Heq.
      * destruct Hreply as [-> | (r & -> & _ & Hneq & _)]; [destruct Hin|].
        destruct Hin as [Heq | []]. injection Heq as Heq. now apply Hneq.
    + rewrite count_restart_app, IHlog.
      destruct Hreply as [-> | (r & -> & _ & Hneq & _)].
      * now destruct (auto_log st).
      * apply String.eqb_neq in Hneq.
        destruct (auto_log st); unfold count_restart; cbn; now rewrite ?Hneq.
Qed.




(** ** The quota error after seven pairs *)

Lemma seven_pairs_reachable : reachable seven_pairs.
Proof. apply run_all_reachable. constructor. Qed.

(** The window that line 196 would cut from the transcript the eighth
    message leaves: it starts in the middle of the second pair and ends
    with the pending prompt. *)
Lemma line_196_window_after_seven_pairs :
  slice_last (MAX_HISTORY_TURN * 2) (messages restarted_after_seven)
  = [ assistant "a2";
      user "u3"; assistant "a3"; user "u4"; assistant "a4";
      user "u5"; assistant "a5"; user "u6"; assistant "a6";
      user "u7"; assistant "a7"; user "u8" ].
Proof. reflexivity. Qed.



(** * Further properties of the page *)

(** ** The streamed reply *)

Lemma string_append_assoc (a b c : string) :
  ((a ++ b) ++ c)%string = (a ++ (b ++ c))%string.
Proof. induction a as [|x a IH]; cbn; [reflexivity | now rewrite IH]. Qed.

Lemma accumulate_step (chunk_text : option string) (full_response : string) :
  (if truthy_opt chunk_text
   then (full_response
           ++ match chunk_text with Some t => t | None => EmptyString end)%string
   else full_response)
  = (full_response ++ fragment chunk_text)%string.
Proof.
  destruct chunk_text as [[|c t]|]; cbn; trivial;
    now rewrite append_empty_r.
Qed.

(** The accumulated reply is the text held before the stream, followed by
    the fragments in their order of arrival; chunks without text count for
    nothing, and a stream cut in two accumulates like the two parts in
    turn. *)
Theorem accumulate_in_arrival_order
    (chunks1 chunks2 : list (option string)) (full_response : string) :
  accumulate chunks1 full_response
  = (full_response ++ fold_right String.append EmptyString (map fragment chunks1))%string
  /\ accumulate (chunks1 ++ chunks2) full_response
     = accumulate chunks2 (accumulate chunks1 full_response)
  /\ accumulate (filter truthy_opt chunks1) full_response
     = accumulate chunks1 full_response.
Proof.
  split; [|split].
  - revert full_response.
    induction chunks1 as [|c l IH]; intros acc; cbn [accumulate map fold_right].
    + now rewrite append_empty_r.
    + now rewrite accumulate_step, IH, string_append_assoc.
  - revert full_response.
    induction chunks1 as [|c l IH]; intros acc; cbn [accumulate app];
      [reflexivity | apply IH].
  - revert full_response.
    induction chunks1 as [|c l IH]; intros acc; cbn [accumulate filter];
      [reflexivity|].
    destruct (truthy_opt c) eqn:Hc; cbn [accumulate]; rewrite ?Hc; apply IH.
Qed.

(** The redraws of a stream one chunk longer: those of the stream, then,
    when the last chunk has text, the whole text accumulated with it,
    followed by the cursor. *)
Lemma stream_renderings_snoc (l : list (option string)) (c : option string) :
  forall full_response,
    stream_renderings (l ++ [c]) full_response
    = stream_renderings l full_response
        ++ (if truthy_opt c
            then [(accumulate (l ++ [c]) full_response ++ CURSOR)%string]
            else []).
Proof.
  induction l as [|c0 l IH]; intros acc; cbn [app stream_renderings accumulate].
  - destruct (truthy_opt c); reflexivity.
  - destruct (truthy_opt c0); rewrite IH; reflexivity.
Qed.

(** While a reply streams, the placeholder is redrawn once for every chunk
    that has text and not for the others, in the order of arrival, and each
    redraw shows the whole text accumulated up to and including that chunk,
    followed by the cursor.  When the stream ends normally the placeholder
    is drawn a last time, with the final text and no cursor added; when an
    exception ends it nothing more is drawn. *)
Theorem placeholder_redraws_accumulated_text
    (l : list (option string)) (c : option string) (full_response : string)
    (r : Response) :
  stream_renderings [] full_response = []
  /\ stream_renderings (l ++ [c]) full_response
     = stream_renderings l full_response
         ++ (if truthy_opt c
             then [(accumulate (l ++ [c]) full_response ++ CURSOR)%string]
             else [])
  /\ (ending r = StopIteration ->
      placeholder_renderings r
      = stream_renderings (chunks r) EmptyString
          ++ [accumulate (chunks r) EmptyString])
  /\ (ending r <> StopIteration ->
      placeholder_renderings r = stream_renderings (chunks r) EmptyString).
Proof.
  split; [reflexivity|]. split; [apply stream_renderings_snoc|].
  unfold placeholder_renderings.
  destruct (try_send_cases r) as [[Hend ->] | [Hend ->]]; split; intros H;
    try contradiction; try reflexivity.
  apply app_nil_r.
Qed.

(** ** The decisions of a run *)

(** [get_api_key]: the key of the secrets wins over the sidebar field, the
    key returned is never empty, and the run stops exactly when both
    sources are empty or missing; it then stops before anything else is
    done: no session is created, nothing is sent. *)
Theorem get_api_key_prefers_secret (i : inputs) :
  (forall api_key, get_api_key i = Some api_key ->
     api_key <> EmptyString
     /\ (secrets_GEMINI_API_KEY i = Some api_key
         \/ (truthy_opt (secrets_GEMINI_API_KEY i) = false
             /\ text_input i = api_key)))
  /\ (forall k, secrets_GEMINI_API_KEY i = Some k -> k <> EmptyString ->
        get_api_key i = Some k)
  /\ (get_api_key i = None
      <-> truthy_opt (secrets_GEMINI_API_KEY i) = false
          /\ text_input i = EmptyString)
  /\ (get_api_key i = None ->
      forall st, script_run i st = (initial_setup st, Stop)).
Proof.
  split; [|split; [|split]].
  - intros api_key Hkey. split.
    + apply truthy_true_iff. exact (get_api_key_truthy _ _ Hkey).
    + revert Hkey. unfold get_api_key.
      destruct (truthy_opt (secrets_GEMINI_API_KEY i)) eqn:Hsecret.
      * rewrite Hsecret. now left.
      * cbn [truthy_opt]. destruct (truthy (text_input i)); [|discriminate].
        intros H. injection H as <-. right. now split.
  - intros k Hsecret Hne. unfold get_api_key. rewrite Hsecret.
    destruct k as [|c k]; [now contradiction Hne | reflexivity].
  - unfold get_api_key.
    destruct (truthy_opt (secrets_GEMINI_API_KEY i)) eqn:Hsecret.
    + rewrite Hsecret. split.
      * intros H. rewrite H in Hsecret. discriminate Hsecret.
      * intros [H _]. discriminate H.
    + cbn [truthy_opt]. destruct (truthy (text_input i)) eqn:Htyped.
      * split; [discriminate|]. intros [_ H]. rewrite H in Htyped.
        discriminate Htyped.
      * split; [|reflexivity]. intros _. split; [reflexivity|].
        now apply truthy_false_iff.
  - intros Hkey st. pose proof (script_run_decision i st) as Hrun.
    now rewrite Hkey in Hrun.
Qed.

(** A run that is not stopped leaves an active chat session, and the model
    name of the session state is the model selected in the sidebar. *)
Theorem run_not_stopped_serves_selected_model (i : inputs) (st : session_state) :
  snd (script_run i st) <> Stop ->
  (exists chat, gemini_chat (fst (script_run i st)) = Some chat)
  /\ model_name (fst (script_run i st)) = selectbox i.
Proof.
  pose proof (script_run_decision i st) as Hrun.
  assert (Hinit : forall k st0,
            snd (initialize_client_and_chat (client_ok i) (now_first i) k
                   (selectbox i) SYSTEM_PROMPT None st0) <> Stop ->
            (exists chat,
               gemini_chat
                 (fst (initialize_client_and_chat (client_ok i) (now_first i) k
                         (selectbox i) SYSTEM_PROMPT None st0)) = Some chat)
            /\ model_name
                 (fst (initialize_client_and_chat (client_ok i) (now_first i) k
                         (selectbox i) SYSTEM_PROMPT None st0)) = selectbox i).
  { intros k st0. destruct (client_ok i); cbn.
    - intros _. split; [eexists; reflexivity | reflexivity].
    - congruence. }
  destruct (get_api_key i) as [k|]; [|rewrite Hrun; cbn; congruence].
  destruct (button i); [rewrite Hrun; apply Hinit|].
  destruct (gemini_chat st) as [chat|] eqn:Hchat; [|rewrite Hrun; apply Hinit].
  destruct (String.eqb_spec (model_name st) (selectbox i)) as [Hmodel|_];
    [|rewrite Hrun; apply Hinit].
  destruct (truthy_opt (chat_input i)); rewrite Hrun; cbn [fst snd]; intros _.
  - destruct (submit_effect i k (fragment (chat_input i))
                (set_auto_log (checkbox i) st))
      as (_ & _ & _ & _ & -> & -> & _).
    cbn. rewrite Hchat. split; [now exists chat | exact Hmodel].
  - cbn. rewrite Hchat. split; [now exists chat | exact Hmodel].
Qed.

(** An instance of [run_not_stopped_serves_selected_model]: the first run
    of a session. *)
Lemma run_not_stopped_serves_selected_model_witness :
  snd (script_run (first_run false) fresh_session) <> Stop
  /\ (exists chat,
        gemini_chat (fst (script_run (first_run false) fresh_session))
        = Some chat)
  /\ model_name (fst (script_run (first_run false) fresh_session))
     = DEFAULT_MODEL.
Proof.
  assert (Hrun : snd (script_run (first_run false) fresh_session) <> Stop)
    by (vm_compute; discriminate).
  split; [exact Hrun|].
  exact (run_not_stopped_serves_selected_model (first_run false)
           fresh_session Hrun).
Defined.

(** When the reset button is pressed, when no session exists yet or when
    the selected model is not the session's, and a key is there and the
    client can be created, the run ends in a rerun on the empty session of
    the selected model: both stores are empty, a prompt submitted in the
    same run is dropped, and a pressed reset button keeps the logging toggle
    as it was (the checkbox is not read). *)
Theorem reinitialization_gives_empty_session
    (i : inputs) (st : session_state) (api_key : string) :
  get_api_key i = Some api_key ->
  client_ok i = true ->
  button i = true \/ gemini_chat st = None \/ model_name st <> selectbox i ->
  script_run i st
  = (mkState
       (Some (mkChat (selectbox i) (types.mkConfig SYSTEM_PROMPT) []))
       [] [] (selectbox i)
       (if button i then auto_log st else checkbox i),
     Rerun).
Proof.
  intros Hkey Hok Hwhy. pose proof (script_run_decision i st) as Hrun.
  rewrite Hkey, Hok in Hrun.
  assert (Htoggle : auto_log (initial_setup st) = auto_log st).
  { unfold initial_setup. now destruct (gemini_chat st). }
  destruct (button i).
  - rewrite Hrun, initialize_reset. now rewrite Htoggle.
  - destruct Hwhy as [Hb | [Hnone | Hmodel]]; [discriminate Hb | |].
    + rewrite Hnone in Hrun. now rewrite Hrun, initialize_reset.
    + destruct (gemini_chat st).
      * apply String.eqb_neq in Hmodel. rewrite Hmodel in Hrun.
        now rewrite Hrun, initialize_reset.
      * now rewrite Hrun, initialize_reset.
Qed.

(** An instance of [reinitialization_gives_empty_session]: the reset button
    pressed after one exchange, with a prompt in the input field. *)
Lemma reinitialization_gives_empty_session_witness :
  get_api_key press_reset = Some "key"
  /\ client_ok press_reset = true
  /\ chat_input press_reset = Some "again"
  /\ messages one_exchange = [user "hello"; assistant "hi"]
  /\ script_run press_reset one_exchange
     = (mkState
          (Some (mkChat DEFAULT_MODEL (types.mkConfig SYSTEM_PROMPT) []))
          [] [] DEFAULT_MODEL false,
        Rerun).
Proof.
  split; [reflexivity|]. split; [reflexivity|]. split; [reflexivity|].
  split; [reflexivity|].
  exact (reinitialization_gives_empty_session press_reset one_exchange "key"
           eq_refl eq_refl (or_introl eq_refl)).
Defined.

(** When a session is active and its re-initialization fails because the
    client or the chat cannot be created, the run stops and the session
    state keeps the old chat, the old model name, the transcript and the
    log; only the logging toggle may have been updated on the way. *)
Theorem failed_initialization_keeps_conversation
    (i : inputs) (st : session_state) (chat : Chat) (api_key : string) :
  gemini_chat st = Some chat ->
  get_api_key i = Some api_key ->
  client_ok i = false ->
  button i = true \/ model_name st <> selectbox i ->
  script_run i st
  = (if button i then st else set_auto_log (checkbox i) st, Stop).
Proof.
  intros Hchat Hkey Hok Hwhy. pose proof (script_run_decision i st) as Hrun.
  rewrite Hkey, Hok, Hchat in Hrun.
  rewrite (initial_setup_active _ _ Hchat) in Hrun.
  destruct (button i); [exact Hrun|].
  destruct Hwhy as [Hb | Hmodel]; [discriminate Hb|].
  apply String.eqb_neq in Hmodel. rewrite Hmodel in Hrun. exact Hrun.
Qed.

(** An instance of [failed_initialization_keeps_conversation]: another
    model is selected after one exchange and the client cannot be
    created. *)
Lemma failed_initialization_keeps_conversation_witness :
  gemini_chat one_exchange
  = Some (mkChat DEFAULT_MODEL (types.mkConfig SYSTEM_PROMPT) [])
  /\ get_api_key change_model_offline = Some "key"
  /\ client_ok change_model_offline = false
  /\ model_name one_exchange <> selectbox change_model_offline
  /\ messages (fst (script_run change_model_offline one_exchange))
     = [user "hello"; assistant "hi"]
  /\ model_name (fst (script_run change_model_offline one_exchange))
     = DEFAULT_MODEL
  /\ snd (script_run change_model_offline one_exchange) = Stop.
Proof.
  assert (Hmodel : model_name one_exchange <> selectbox change_model_offline)
    by (vm_compute; discriminate).
  split; [reflexivity|]. split; [reflexivity|]. split; [reflexivity|].
  split; [exact Hmodel|].
  rewrite (failed_initialization_keeps_conversation change_model_offline
             one_exchange _ "key" eq_refl eq_refl eq_refl (or_intror Hmodel)).
  repeat split.
Defined.

(** A run that reaches the end of the script had an active session on the
    selected model and no prompt, and changes nothing in the session state
    but the logging toggle, set to the checkbox. *)
Theorem finished_run_only_sets_toggle (i : inputs) (st : session_state) :
  snd (script_run i st) = Finished ->
  fst (script_run i st) = set_auto_log (checkbox i) st
  /\ (exists chat, gemini_chat st = Some chat)
  /\ model_name st = selectbox i
  /\ truthy_opt (chat_input i) = false.
Proof.
  pose proof (script_run_decision i st) as Hrun.
  assert (Hinit : forall k st0,
            snd (initialize_client_and_chat (client_ok i) (now_first i) k
                   (selectbox i) SYSTEM_PROMPT None st0) <> Finished).
  { intros k st0. destruct (client_ok i); discriminate. }
  destruct (get_api_key i) as [k|]; [|rewrite Hrun; discriminate].
  destruct (button i); [rewrite Hrun; intros H; now apply Hinit in H|].
  destruct (gemini_chat st) as [chat|];
    [|rewrite Hrun; intros H; now apply Hinit in H].
  destruct (String.eqb_spec (model_name st) (selectbox i)) as [Hmodel|_];
    [|rewrite Hrun; intros H; now apply Hinit in H].
  destruct (truthy_opt (chat_input i)); rewrite Hrun.
  - intros H. now apply (proj1 (submit_control _ _ _ _)) in H.
  - intros _. repeat split; trivial. now exists chat.
Qed.

(** An instance of [finished_run_only_sets_toggle]: the page is drawn again
    after one exchange, with the logging checkbox now ticked. *)
Lemma finished_run_only_sets_toggle_witness :
  snd (script_run (first_run true) one_exchange) = Finished
  /\ fst (script_run (first_run true) one_exchange)
     = set_auto_log true one_exchange.
Proof.
  assert (Hend : snd (script_run (first_run true) one_exchange) = Finished)
    by reflexivity.
  split; [exact Hend|].
  exact (proj1 (finished_run_only_sets_toggle (first_run true) one_exchange
                  Hend)).
Defined.

(** ** What holds between any two runs *)

(** Between any two runs, every Turn of the transcript is a user or an
    assistant Turn, and every entry of the log has one of these two roles
    and names the model the session state names: a change of model empties
    the log before an entry for the new model is written. *)
Theorem stored_records_well_formed (st : session_state) :
  reachable st ->
  Forall well_formed (messages st)
  /\ Forall (fun e => valid_role (Role e) /\ Model e = model_name st)
       (history_log st).
Proof.
  intros Hst. split; [now apply reachable_well_formed|].
  revert st Hst. apply reachable_by_steps.
  - constructor.
  - intros st IH. unfold initial_setup.
    destruct (gemini_chat st); [exact IH | constructor].
  - intros st toggle IH. exact IH.
  - intros st ok now k m IH. destruct ok; [constructor | exact IH].
  - intros st i k p c _ IH.
    destruct (submit_effect i k p st)
      as (reply & _ & -> & Hreply & _ & -> & _).
    apply Forall_app. split; [exact IH|].
    constructor; [split; [now left | reflexivity]|].
    destruct (auto_log st); [|constructor].
    destruct Hreply as [-> | (r & -> & _)]; [constructor|].
    constructor; [split; [now right | reflexivity] | constructor].
Qed.

(** An instance of [stored_records_well_formed]: the state after seven
    logged pairs and an eighth send that met the quota error. *)
Lemma stored_records_well_formed_witness :
  reachable restarted_after_seven
  /\ Forall well_formed (messages restarted_after_seven)
  /\ Forall (fun e => valid_role (Role e)
                      /\ Model e = model_name restarted_after_seven)
       (history_log restarted_after_seven).
Proof.
  assert (Hreach : reachable restarted_after_seven).
  { apply reachable_run, seven_pairs_reachable. }
  split; [exact Hreach|].
  exact (stored_records_well_formed restarted_after_seven Hreach).
Defined.

(** Between any two runs, an active chat session is one for the model the
    session state names and for the fixed system prompt; and as long as no
    session is active both stores are empty. *)
Theorem active_session_matches_model_name (st : session_state) :
  reachable st ->
  (forall chat, gemini_chat st = Some chat ->
     model chat = model_name st
     /\ config chat = types.mkConfig SYSTEM_PROMPT)
  /\ (gemini_chat st = None -> messages st = [] /\ history_log st = []).
Proof.
  revert st. apply reachable_by_steps.
  - split; [discriminate | now split].
  - intros st IH. destruct (gemini_chat st) as [c|] eqn:Hchat.
    + rewrite (initial_setup_active _ _ Hchat), Hchat. exact IH.
    + unfold initial_setup. rewrite Hchat. cbn. rewrite Hchat.
      split; [discriminate | now split].
  - intros st toggle IH. exact IH.
  - intros st ok now k m IH. destruct ok; [|exact IH].
    cbn. split; [|discriminate].
    intros chat H. injection H as <-. now split.
  - intros st i k p c Hchat [IHsome _].
    destruct (submit_effect i k p st) as (_ & _ & _ & _ & -> & -> & _).
    rewrite Hchat. split; [|discriminate].
    intros chat H. injection H as <-. now apply IHsome.
Qed.

(** An instance of [active_session_matches_model_name]: the session after
    seven pairs and an eighth send that met the quota error. *)
Lemma active_session_matches_model_name_witness :
  reachable restarted_after_seven
  /\ exists chat,
       gemini_chat restarted_after_seven = Some chat
       /\ model chat = model_name restarted_after_seven
       /\ config chat = types.mkConfig SYSTEM_PROMPT.
Proof.
  assert (Hreach : reachable restarted_after_seven).
  { apply reachable_run, seven_pairs_reachable. }
  split; [exact Hreach|].
  destruct (gemini_chat restarted_after_seven) as [chat|] eqn:Hchat.
  - exists chat. split; [reflexivity|].
    exact (proj1 (active_session_matches_model_name restarted_after_seven
                    Hreach) chat Hchat).
  - vm_compute in Hchat. discriminate Hchat.
Defined.

(** Between any two runs the log is empty exactly when the transcript is:
    the sidebar offers the log download as soon as something has been said,
    whatever the logging toggle, and not before. *)
Theorem download_offered_iff_conversation (st : session_state) :
  reachable st ->
  (log_download_offered st = true <-> messages st <> []).
Proof.
  intros Hst.
  assert (Hboth : messages st = [] <-> history_log st = []).
  { revert st Hst. apply reachable_by_steps.
    - now split.
    - intros st IH. unfold initial_setup.
      destruct (gemini_chat st); [exact IH | now split].
    - intros st toggle IH. exact IH.
    - intros st ok now k m IH. destruct ok; [now split | exact IH].
    - intros st i k p c _ _.
      destruct (submit_effect i k p st) as (reply & -> & -> & _).
      split; intros Hnil; now apply app_eq_nil in Hnil as [_ Hnil]. }
  unfold log_download_offered. destruct (history_log st) as [|e log].
  - split; [discriminate|]. intros Hne. exfalso. apply Hne. now apply Hboth.
  - split; [|reflexivity]. intros _ Hnil. apply Hboth in Hnil. discriminate Hnil.
Qed.

(** An instance of [download_offered_iff_conversation]: one exchange with
    the logging toggle off. *)
Lemma download_offered_iff_conversation_witness :
  reachable one_exchange
  /\ auto_log one_exchange = false
  /\ log_download_offered one_exchange = true.
Proof.
  assert (Hreach : reachable one_exchange).
  { apply run_all_reachable. constructor. }
  split; [exact Hreach|]. split; [reflexivity|].
  apply (download_offered_iff_conversation one_exchange Hreach).
  vm_compute. discriminate.
Defined.


(** ** The log against the transcript, the sidebar count *)

(** As long as the logging checkbox keeps one value, whatever the sends do
    (a reply, a reply held back, an exception), the log read as Turns is the
    transcript itself when the checkbox is ticked, and the user Turns of the
    transcript when it is not. *)
Theorem log_mirrors_transcript (toggle : bool) (st : session_state) :
  reachable_with_toggle toggle st ->
  map turn_of_entry (history_log st)
  = if toggle then messages st else filter is_user (messages st).
Proof.
  induction 1 as [|i st _ IH Hbox]; [now destruct toggle|].
  assert (Hsetup : map turn_of_entry (history_log (initial_setup st))
                   = if toggle then messages (initial_setup st)
                     else filter is_user (messages (initial_setup st))).
  { unfold initial_setup. destruct (gemini_chat st); [exact IH|].
    now destruct toggle. }
  assert (Hinit : forall k st0,
            map turn_of_entry (history_log st0)
            = (if toggle then messages st0 else filter is_user (messages st0)) ->
            map turn_of_entry
              (history_log
                 (fst (initialize_client_and_chat (client_ok i) (now_first i) k
                         (selectbox i) SYSTEM_PROMPT None st0)))
            = if toggle
              then messages
                     (fst (initialize_client_and_chat (client_ok i) (now_first i)
                             k (selectbox i) SYSTEM_PROMPT None st0))
              else filter is_user
                     (messages
                        (fst (initialize_client_and_chat (client_ok i)
                                (now_first i) k (selectbox i) SYSTEM_PROMPT
                                None st0)))).
  { intros k st0 H0. destruct (client_ok i); [now destruct toggle | exact H0]. }
  pose proof (script_run_decision i st) as Hrun.
  destruct (get_api_key i) as [k|]; [|now rewrite Hrun].
  destruct (button i); [rewrite Hrun; now apply Hinit|].
  destruct (gemini_chat st) as [chat|]; [|rewrite Hrun; now apply Hinit].
  destruct (model_name st =? selectbox i)%string;
    [|rewrite Hrun; now apply Hinit].
  destruct (truthy_opt (chat_input i)); rewrite Hrun; [|exact IH].
  destruct (submit_effect i k (fragment (chat_input i))
              (set_auto_log (checkbox i) st))
    as (reply & -> & -> & Hreply & _).
  cbn [fst messages history_log set_auto_log auto_log model_name].
  rewrite map_app, IH, Hbox.
  destruct Hreply as [-> | (r & -> & _)]; destruct toggle; cbn [map];
    rewrite ?filter_app; reflexivity.
Qed.

(** An instance of [log_mirrors_transcript]: two prompts sent to a call
    that raises, the checkbox ticked. *)
Lemma log_mirrors_transcript_witness :
  reachable_with_toggle true two_rejected_calls
  /\ messages two_rejected_calls = [user "hello"; user "anyone?"]
  /\ map turn_of_entry (history_log two_rejected_calls)
     = [user "hello"; user "anyone?"].
Proof.
  assert (Hreach : reachable_with_toggle true two_rejected_calls).
  { unfold two_rejected_calls, run_all. cbn [fold_left].
    repeat (apply toggle_run; [|reflexivity]). apply toggle_fresh. }
  split; [exact Hreach|]. split; [reflexivity|].
  rewrite (log_mirrors_transcript true two_rejected_calls Hreach). reflexivity.
Defined.

Lemma dialogue_counts (l : list Turn) :
  dialogue l ->
  List.length (filter is_assistant l) <= List.length (filter is_user l)
  /\ List.length l
     = List.length (filter is_user l) + List.length (filter is_assistant l).
Proof.
  induction 1 as [|l prompt _ [IHle IHlen]|l prompt reply _ [IHle IHlen]];
    rewrite ?filter_app, ?length_app; cbn; lia.
Qed.

Lemma reachable_dialogue (st : session_state) :
  reachable st -> dialogue (messages st).
Proof.
  revert st. apply reachable_by_steps.
  - constructor.
  - intros st IH. destruct (initial_setup_messages st) as [-> | ->];
      [constructor | exact IH].
  - intros st toggle IH. exact IH.
  - intros st ok now k m IH. destruct ok; [constructor | exact IH].
  - intros st i k p c _ IH.
    destruct (submit_effect i k p st) as (reply & -> & _ & Hreply & _).
    destruct Hreply as [-> | (r & -> & _)]; now constructor.
Qed.

(** Between any two runs every assistant Turn of the transcript answers the
    user Turn just before it, so the turn count of the sidebar (half the
    length of the transcript, rounded down) is at least the number of
    replies and at most the number of prompts; a prompt whose send raised
    or whose reply was held back counts for half a turn. *)
Theorem total_turns_between_replies_and_prompts (st : session_state) :
  reachable st ->
  dialogue (messages st)
  /\ List.length (filter is_assistant (messages st)) <= total_turns st
  /\ total_turns st <= List.length (filter is_user (messages st)).
Proof.
  intros Hst. pose proof (reachable_dialogue st Hst) as Hdialogue.
  destruct (dialogue_counts _ Hdialogue) as [Hle Hlen].
  split; [exact Hdialogue|]. unfold total_turns. rewrite Hlen. split.
  - apply Nat.div_le_lower_bound; lia.
  - apply Nat.Div0.div_le_upper_bound; lia.
Qed.

(** An instance of [total_turns_between_replies_and_prompts]: two prompts
    sent to a call that raises count as one turn. *)
Lemma total_turns_between_replies_and_prompts_witness :
  reachable two_rejected_calls
  /\ List.length (filter is_user (messages two_rejected_calls)) = 2
  /\ List.length (filter is_assistant (messages two_rejected_calls)) = 0
  /\ total_turns two_rejected_calls = 1
  /\ total_turns two_rejected_calls
     <= List.length (filter is_user (messages two_rejected_calls)).
Proof.
  assert (Hreach : reachable two_rejected_calls).
  { apply run_all_reachable. constructor. }
  split; [exact Hreach|]. split; [reflexivity|]. split; [reflexivity|].
  split; [reflexivity|].
  exact (proj2 (proj2 (total_turns_between_replies_and_prompts
                         two_rejected_calls Hreach))).
Defined.

(** ** What the page never does *)

(** Between any two runs the restart notice is in neither store and no chat
    session holds a replayed content: no restoration is ever completed. *)
Theorem restoration_never_completes (st : session_state) :
  reachable st ->
  ~ In restart_turn (messages st)
  /\ count_restart (history_log st) = 0
  /\ forall chat, gemini_chat st = Some chat -> history chat = [].
Proof.
  intros Hst. destruct (restart_notice_never_stored st Hst) as [Hmsgs Hlog].
  split; [exact Hmsgs|]. split; [exact Hlog|].
  clear Hmsgs Hlog. revert st Hst.
  apply (reachable_by_steps
           (fun st => forall chat, gemini_chat st = Some chat ->
                                   history chat = [])).
  - discriminate.
  - intros st IH. destruct (gemini_chat st) as [c|] eqn:Hchat.
    + rewrite (initial_setup_active _ _ Hchat), Hchat. exact IH.
    + unfold initial_setup. rewrite Hchat. cbn. rewrite Hchat. discriminate.
  - intros st toggle IH. exact IH.
  - intros st ok now k m IH. destruct ok; [|exact IH].
    cbn. intros chat H. injection H as <-. reflexivity.
  - intros st i k p c _ IH.
    destruct (submit_effect i k p st) as (_ & _ & _ & _ & -> & _).
    exact IH.
Qed.

(** An instance of [restoration_never_completes]: the state the quota error
    leaves after seven pairs. *)
Lemma restoration_never_completes_witness :
  reachable restarted_after_seven
  /\ ~ In restart_turn (messages restarted_after_seven)
  /\ count_restart (history_log restarted_after_seven) = 0.
Proof.
  assert (Hreach : reachable restarted_after_seven).
  { apply reachable_run, seven_pairs_reachable. }
  split; [exact Hreach|].
  destruct (restoration_never_completes restarted_after_seven Hreach)
    as (Hmsgs & Hlog & _).
  split; [exact Hmsgs | exact Hlog].
Defined.

(** A prompt whose send is ended by an exception, the quota error or any
    other, before the first chunk or after some: the user message is
    recorded in both stores, then the exception leaves the script.  There
    is no apology, no restoration and no rerun, and the text streamed
    before the exception is lost. *)
Theorem raised_send_leaves_pending_prompt
    (i : inputs) (st : session_state) (chat : Chat) (api_key prompt : string) :
  gemini_chat st = Some chat ->
  model_name st = selectbox i ->
  button i = false ->
  get_api_key i = Some api_key ->
  chat_input i = Some prompt ->
  prompt <> EmptyString ->
  ending (send_message i) <> StopIteration ->
  script_run i st
  = (mkState (Some chat)
       (messages st ++ [mkTurn "user" prompt])
       (history_log st
          ++ [mkLogEntry (now_first i) "user" prompt (model_name st)])
       (model_name st) (checkbox i),
     Uncaught).
Proof.
  intros Hchat Hmodel Hbutton Hkey Hprompt Hne Hend.
  rewrite (script_run_submit i st chat api_key prompt Hchat Hmodel Hbutton
             Hkey Hprompt Hne).
  rewrite (submit_raised i api_key prompt (set_auto_log (checkbox i) st) Hend).
  unfold record_user, set_messages, set_history_log, set_auto_log. cbn.
  now rewrite Hchat.
Qed.

(** An instance of [raised_send_leaves_pending_prompt]: the first message
    of a session, cut by a time-out after a first chunk. *)
Lemma raised_send_leaves_pending_prompt_witness :
  ending (send_message timed_out) <> StopIteration
  /\ chunks (send_message timed_out) = [Some "par"]
  /\ script_run timed_out (new_session false)
     = (mkState
          (Some (mkChat DEFAULT_MODEL (types.mkConfig SYSTEM_PROMPT) []))
          [user "hello"] [logged "user" "hello"] DEFAULT_MODEL false,
        Uncaught).
Proof.
  assert (Hend : ending (send_message timed_out) <> StopIteration)
    by discriminate.
  assert (Hne : "hello" <> EmptyString) by discriminate.
  split; [exact Hend|]. split; [reflexivity|].
  exact (raised_send_leaves_pending_prompt timed_out (new_session false)
           (mkChat DEFAULT_MODEL (types.mkConfig SYSTEM_PROMPT) [])
           "key" "hello" eq_refl eq_refl eq_refl eq_refl eq_refl Hne Hend).
Defined.

(** [initialize_client_and_chat] with a history to restore that is not
    empty, the client being creatable: the replay raises on its first Turn,
    the run is stopped, and the session state holds the new chat, with
    nothing replayed, and the model name, over a transcript and a log that
    are as they were; no restart notice is written.  An empty history is
    falsy on line 66 and gives the full reset instead. *)
Theorem restore_stops_at_the_replay
    (now api_key model_name_arg system_prompt : string)
    (h : list Turn) (st : session_state) :
  h <> [] ->
  initialize_client_and_chat true now api_key model_name_arg system_prompt
    (Some h) st
  = (mkState
       (Some (mkChat model_name_arg (types.mkConfig system_prompt) []))
       (messages st) (history_log st) model_name_arg (auto_log st),
     Stop)
  /\ initialize_client_and_chat true now api_key model_name_arg system_prompt
       (Some []) st
     = initialize_client_and_chat true now api_key model_name_arg
         system_prompt None st.
Proof.
  intros Hne. split; [now apply initialize_restore_stops | reflexivity].
Qed.

(** An instance of [restore_stops_at_the_replay]: the history of one
    exchange. *)
Lemma restore_stops_at_the_replay_witness :
  hello_hi <> []
  /\ initialize_client_and_chat true "2024-01-01 00:01:00" "key"
       "gemini-2.5-pro" SYSTEM_PROMPT (Some hello_hi) one_exchange
     = (mkState
          (Some (mkChat "gemini-2.5-pro" (types.mkConfig SYSTEM_PROMPT) []))
          [user "hello"; assistant "hi"] [logged "user" "hello"]
          "gemini-2.5-pro" false,
        Stop).
Proof.
  assert (Hne : hello_hi <> []) by discriminate.
  split; [exact Hne|].
  exact (proj1 (restore_stops_at_the_replay "2024-01-01 00:01:00" "key"
                  "gemini-2.5-pro" SYSTEM_PROMPT hello_hi one_exchange Hne)).
Defined.

(** When every send raises at once, as the call of line 184 does on a chat
    whose [send_message] has no [stream] parameter, the transcript holds
    user Turns only and the log, read as Turns, is the transcript, whatever
    the logging toggle: no reply is ever recorded. *)
Theorem raising_sends_record_prompts_only (st : session_state) :
  reachable_raising st ->
  Forall (fun t => role t = "user") (messages st)
  /\ map turn_of_entry (history_log st) = messages st.
Proof.
  induction 1 as [|i st _ [IHroles IHlog] Hraises];
    [split; [constructor | reflexivity]|].
  assert (Hsetup : Forall (fun t => role t = "user")
                     (messages (initial_setup st))
                   /\ map turn_of_entry (history_log (initial_setup st))
                      = messages (initial_setup st)).
  { unfold initial_setup. destruct (gemini_chat st); [now split|].
    split; [constructor | reflexivity]. }
  assert (Hinit : forall k st0,
            Forall (fun t => role t = "user") (messages st0)
            /\ map turn_of_entry (history_log st0) = messages st0 ->
            Forall (fun t => role t = "user")
              (messages
                 (fst (initialize_client_and_chat (client_ok i) (now_first i) k
                         (selectbox i) SYSTEM_PROMPT None st0)))
            /\ map turn_of_entry
                 (history_log
                    (fst (initialize_client_and_chat (client_ok i) (now_first i)
                            k (selectbox i) SYSTEM_PROMPT None st0)))
               = messages
                   (fst (initialize_client_and_chat (client_ok i) (now_first i)
                           k (selectbox i) SYSTEM_PROMPT None st0))).
  { intros k st0 H0. destruct (client_ok i); [|exact H0].
    split; [constructor | reflexivity]. }
  pose proof (script_run_decision i st) as Hrun.
  destruct (get_api_key i) as [k|]; [|now rewrite Hrun].
  destruct (button i); [rewrite Hrun; now apply Hinit|].
  destruct (gemini_chat st) as [chat|];
    [|rewrite Hrun; apply Hinit; exact Hsetup].
  destruct (model_name st =? selectbox i)%string;
    [|rewrite Hrun; apply Hinit; now split].
  destruct (truthy_opt (chat_input i)); rewrite Hrun; [|now split].
  destruct (Hraises eq_refl) as [_ Hend].
  rewrite (submit_raised i k (fragment (chat_input i))
             (set_auto_log (checkbox i) st) Hend).
  cbn. split.
  - apply Forall_app. split; [exact IHroles | now repeat constructor].
  - now rewrite map_app, IHlog.
Qed.

(** An instance of [raising_sends_record_prompts_only]: two prompts sent to
    a call that raises at once. *)
Lemma raising_sends_record_prompts_only_witness :
  reachable_raising two_rejected_calls
  /\ messages two_rejected_calls = [user "hello"; user "anyone?"]
  /\ map turn_of_entry (history_log two_rejected_calls)
     = messages two_rejected_calls.
Proof.
  assert (Hreach : reachable_raising two_rejected_calls).
  { unfold two_rejected_calls, run_all. cbn [fold_left].
    apply raising_run; [|intros _; split; [reflexivity | discriminate]].
    apply raising_run; [|intros _; split; [reflexivity | discriminate]].
    apply raising_run; [|discriminate].
    apply raising_fresh. }
  split; [exact Hreach|]. split; [reflexivity|].
  exact (proj2 (raising_sends_record_prompts_only two_rejected_calls Hreach)).
Defined.
